(** * Weather car cover planner: advisory classifier and forecast pipeline

    A shallow embedding of [src/utils/weather.ts] and of the [fetchWeather]
    callback of [src/screens/WeatherScreen.tsx].

    Conventions of the embedding.
    - A JavaScript [number] that carries a measurement (precipitation
      probability, temperature, latitude, longitude) is an exact rational
      [Q]; rounding of IEEE doubles is not modelled.  Weather codes and
      timestamps are integers [Z].
    - A value the code guards with [??] or [?.] is an [option]: [None] is
      JavaScript's [undefined]/[null].
    - An array read [a[i]] is stdpp's list lookup [a !! i]; out of range it
      is [None], as JavaScript's [undefined]. *)

From Stdlib Require Import ZArith QArith Qround String Ascii List Lia.
From Stdlib Require Import DecimalString DecimalPos DecimalZ.
From stdpp Require Import base option list.
Import ListNotations.

Local Open Scope string_scope.
Local Open Scope Z_scope.

(** ** src/utils/weather.ts *)

Record Temp := {
  temp_min : option Q;
  temp_max : option Q
}.

Record WeatherEntry := {
  w_id : option Z;
  w_main : string;
  w_description : string;
  w_icon : string
}.

Record DailyWeather := {
  dt : Z;
  temp : Temp;
  pop : option Q;
  weather : option (list WeatherEntry)
}.

Inductive CarCoverAdvice := cover | optional | no.

(** [x >= y] on numbers. *)
Definition geq (x y : Q) : bool := Qle_bool y x.

Definition getCarCoverAdvice (d : DailyWeather) : CarCoverAdvice :=
  let p := default 0%Q (pop d) in
  let code := default 800 ((weather d ≫= (λ ws : list WeatherEntry, ws !! 0%nat)) ≫= w_id) in
  let willRainLikely := geq p (4 # 10) in
  let isStormy := (200 <=? code) && (code <? 600) in
  if willRainLikely || isStormy then no
  else if geq p (2 # 10) then optional
  else cover.

Definition adviceLabel (advice : CarCoverAdvice) : string :=
  match advice with
  | cover => "Cover your car"
  | optional => "Cover optional"
  | no => "No cover needed"
  end.

Definition adviceColor (advice : CarCoverAdvice) : string :=
  match advice with
  | no => "#dc2626"
  | optional => "#f97316"
  | cover => "#16a34a"
  end.

(** ** src/screens/WeatherScreen.tsx *)

(** Shape of the Open-Meteo daily response.  [daily] and [time] are
    declared mandatory but are tested for absence by [fetchWeather], so
    they are options here; the two temperature arrays are read
    unguarded. *)
Record OpenMeteoDaily := {
  time : option (list string);
  temperature_2m_max : list Q;
  temperature_2m_min : list Q;
  precipitation_probability_max : option (list Q);
  weathercode : option (list Z)
}.

Record OpenMeteoResponse := {
  data_daily : option OpenMeteoDaily
}.

(** [String(code)] for an integer code. *)
Definition numberToString (code : Z) : string :=
  NilZero.string_of_int (Z.to_int code).

Definition describeWeatherCode (code : option Z) : string :=
  match code with
  | None => ""
  | Some code =>
      if code =? 0 then "Clear sky"
      else if (code =? 1) || (code =? 2) then "Mainly clear"
      else if code =? 3 then "Cloudy"
      else if (45 <=? code) && (code <=? 48) then "Fog"
      else if (51 <=? code) && (code <=? 57) then "Drizzle"
      else if (61 <=? code) && (code <=? 67) then "Rain"
      else if (71 <=? code) && (code <=? 77) then "Snow"
      else if (80 <=? code) && (code <=? 82) then "Rain showers"
      else if (95 <=? code) && (code <=? 99) then "Thunderstorm"
      else "Weather code " ++ numberToString code
  end.

(** *** The component's state and the outside world *)

(** The six [useState] cells of [WeatherScreen]. *)
Record Screen := {
  loading : bool;
  refreshing : bool;
  error : option string;
  daily : list DailyWeather;
  place : option string;
  coords : option (Q * Q)
}.

(** State on first render. *)
Definition initialScreen : Screen :=
  {| loading := true; refreshing := false; error := None;
     daily := []; place := None; coords := None |}.

(** A thrown value, as far as [fetchWeather] inspects it: [err?.message]. *)
Record JsError := { message : option string }.

(** The fields of a reverse-geocoded address that the screen reads. *)
Record Address := {
  city : option string;
  region : option string;
  country : option string
}.

(** What the device and the network answer during one cycle.  Every
    awaited call either resolves ([inr]) or rejects ([inl]).
    [dateGetTime s] is [new Date(s).getTime()] in the device's time zone,
    for the ISO dates the provider sends. *)
Record World := {
  requestForegroundPermissionsAsync : JsError + string;
  getCurrentPositionAsync : JsError + (Q * Q);
  reverseGeocodeAsync : Q → Q → JsError + option (list Address);
  axios_get : Q → Q → JsError + OpenMeteoResponse;
  dateGetTime : string → Z
}.

(** Calls that leave the component, in the order they are made.  The
    forecast URL is fixed but for the two coordinates. *)
Inductive Event :=
| RequestForegroundPermissions
| GetCurrentPosition
| ReverseGeocode (latitude longitude : Q)
| HttpGet (latitude longitude : Q)
| ConsoleLog (tag : string)
| ConsoleWarn (tag : string)
| ConsoleError (tag : string).

Record Run := {
  ui : Screen;
  calls : list Event
}.

(** *** A small monad for the body of an async function

    A computation transforms the run and completes normally, by a thrown
    value, or by [return]. *)
Inductive Completion (A : Type) :=
| Normal (a : A)
| Throw (e : JsError)
| Return.
Arguments Normal {A} a.
Arguments Throw {A} e.
Arguments Return {A}.

Definition Async (A : Type) : Type := Run → Completion A * Run.

Definition ret {A} (a : A) : Async A := λ r, (Normal a, r).
Definition throw {A} (e : JsError) : Async A := λ r, (Throw e, r).
Definition return_ {A} : Async A := λ r, (Return, r).

Definition bind {A B} (c : Async A) (k : A → Async B) : Async B :=
  λ r, match c r with
       | (Normal a, r') => k a r'
       | (Throw e, r') => (Throw e, r')
       | (Return, r') => (Return, r')
       end.

Notation "'do' x <- c ; k" := (bind c (λ x, k))
  (at level 10, x name, c at level 99, k at level 200).
Notation "c ;; k" := (bind c (λ _, k))
  (at level 100, k at level 200, right associativity).

Definition emit (e : Event) : Async unit :=
  λ r, (Normal tt, {| ui := ui r; calls := calls r ++ [e] |}).

(** [await] of a platform call: the call is made, then its result is
    delivered or its rejection thrown. *)
Definition await {A} (e : Event) (answer : JsError + A) : Async A :=
  emit e ;;
  match answer with
  | inr a => ret a
  | inl err => throw err
  end.

Definition try_catch {A} (body : Async A) (handler : JsError → Async A) : Async A :=
  λ r, match body r with
       | (Throw e, r') => handler e r'
       | other => other
       end.

(** [try {..} catch (err) {..} finally {..}]: the finaliser runs on every
    path, also after [return]; the function then resolves. *)
Definition try_catch_finally (body : Async unit) (handler : JsError → Async unit)
    (finaliser : Async unit) : Async unit :=
  λ r, let '(c, r') := try_catch body handler r in
       match finaliser r' with
       | (Normal _, r'') => (c, r'')
       | other => other
       end.

Definition modify (f : Screen → Screen) : Async unit :=
  λ r, (Normal tt, {| ui := f (ui r); calls := calls r |}).

Definition setLoading (b : bool) : Async unit :=
  modify (λ s, {| loading := b; refreshing := refreshing s; error := error s;
                  daily := daily s; place := place s; coords := coords s |}).
Definition setRefreshing (b : bool) : Async unit :=
  modify (λ s, {| loading := loading s; refreshing := b; error := error s;
                  daily := daily s; place := place s; coords := coords s |}).
Definition setError (e : option string) : Async unit :=
  modify (λ s, {| loading := loading s; refreshing := refreshing s; error := e;
                  daily := daily s; place := place s; coords := coords s |}).
Definition setDaily (ds : list DailyWeather) : Async unit :=
  modify (λ s, {| loading := loading s; refreshing := refreshing s; error := error s;
                  daily := ds; place := place s; coords := coords s |}).
Definition setPlace (p : option string) : Async unit :=
  modify (λ s, {| loading := loading s; refreshing := refreshing s; error := error s;
                  daily := daily s; place := p; coords := coords s |}).
Definition setCoords (c : option (Q * Q)) : Async unit :=
  modify (λ s, {| loading := loading s; refreshing := refreshing s; error := error s;
                  daily := daily s; place := place s; coords := c |}).

(** *** Helpers standing for JavaScript built-ins *)

(** [Math.round]: the nearest integer, halves towards positive infinity. *)
Definition Math_round (x : Q) : Z := Qfloor (x + (1 # 2)).

(** [xs.filter(Boolean)] on possibly absent strings: [null], [undefined]
    and the empty string are dropped. *)
Definition truthy (s : option string) : option string :=
  match s with
  | Some EmptyString => None
  | other => other
  end.

Definition filterBoolean (xs : list (option string)) : list string :=
  omap truthy xs.

(** [xs.join(sep)]. *)
Definition join (sep : string) (xs : list string) : string :=
  String.concat sep xs.

(** [s || fallback] on strings. *)
Definition orElse (s fallback : string) : string :=
  match s with
  | EmptyString => fallback
  | _ => s
  end.

(** *** fetchWeather *)

(** The arrow function given to [d.time.map]. *)
Definition toDailyWeather (w : World) (d : OpenMeteoDaily)
    (index : nat) (dateStr : string) : DailyWeather :=
  let dtMs := dateGetTime w (dateStr ++ "T12:00:00") in
  let dt := Math_round (inject_Z dtMs / 1000) in
  let max := temperature_2m_max d !! index in
  let min := temperature_2m_min d !! index in
  let popRaw :=
    default 0%Q (precipitation_probability_max d ≫= (λ a : list Q, a !! index)) in
  let code := default 0 (weathercode d ≫= (λ a : list Z, a !! index)) in
  let description := describeWeatherCode (Some code) in
  {| dt := dt;
     temp := {| temp_max := max; temp_min := min |};
     pop := Some (popRaw / 100)%Q;
     weather := Some [ {| w_id := Some code;
                          w_main := description;
                          w_description := description;
                          w_icon := "" |} ] |}.

Definition noDailyData : JsError :=
  {| message := Some "No daily forecast data received." |}.

Definition fetchWeather (w : World) : Async unit :=
  try_catch_finally
    (setError None ;;
     setLoading true ;;
     (* 1) Ask for location permission *)
     do status <- await RequestForegroundPermissions
                        (requestForegroundPermissionsAsync w) ;
     if negb (status =? "granted")%string then
       setError (Some "Location permission denied. Enable it in Settings.") ;;
       setLoading false ;;
       return_
     else
     (* 2) Get current position *)
     do loc <- await GetCurrentPosition (getCurrentPositionAsync w) ;
     let '(latitude, longitude) := loc in
     emit (ConsoleLog "[Location] latitude:") ;;
     setCoords (Some (latitude, longitude)) ;;
     (* 3) Reverse geocode to human-readable place *)
     try_catch
       (do results <- await (ReverseGeocode latitude longitude)
                            (reverseGeocodeAsync w latitude longitude) ;
        match results with
        | Some (addr :: _) =>
            let nice :=
              orElse (join ", " (filterBoolean [city addr; region addr; country addr]))
                     "Unknown location" in
            setPlace (Some nice) ;;
            emit (ConsoleLog "[Location] reverse geocoded:")
        | _ => setPlace (Some "Unknown location")
        end)
       (λ geoErr,
        emit (ConsoleWarn "[Location] reverseGeocodeAsync error:") ;;
        setPlace None) ;;
     (* 4) Call Open-Meteo *)
     emit (ConsoleLog "[Weather] Open-Meteo URL:") ;;
     do res <- await (HttpGet latitude longitude) (axios_get w latitude longitude) ;
     match data_daily res with
     | None => throw noDailyData
     | Some d =>
         match time d with
         | None => throw noDailyData
         | Some dates =>
             if (length dates =? 0)%nat then throw noDailyData
             else
               (* 5) Map Open-Meteo daily data to our DailyWeather type *)
               let mapped := imap (toDailyWeather w d) dates in
               setDaily (take 7 mapped)
         end
     end)
    (λ err,
     emit (ConsoleError "[Weather] Error:") ;;
     setError (Some (default "Failed to load weather." (message err))))
    (setLoading false ;;
     setRefreshing false).

Definition onRefresh (w : World) : Async unit :=
  setRefreshing true ;;
  fetchWeather w.

(** The screen after one cycle, and the calls the cycle made. *)
Definition cycle (w : World) (s : Screen) : Run :=
  snd (fetchWeather w {| ui := s; calls := [] |}).

(** ** Sample devices and provider answers

    Concrete worlds on which the theorems below are exercised. *)

(** A device whose local time zone is UTC: the civil date [YYYY-MM-DD] of
    the string, at noon, in milliseconds since the epoch. *)
Definition digitValue (a : ascii) : Z := Z.of_nat (nat_of_ascii a) - 48.

Fixpoint decimalValue (s : string) (acc : Z) : Z :=
  match s with
  | EmptyString => acc
  | String a s' => decimalValue s' (10 * acc + digitValue a)
  end.

Definition daysFromCivil (y m d : Z) : Z :=
  let y' := if m <=? 2 then y - 1 else y in
  let era := y' / 400 in
  let yoe := y' - era * 400 in
  let mp := (m + 9) mod 12 in
  let doy := (153 * mp + 2) / 5 + d - 1 in
  let doe := yoe * 365 + yoe / 4 - yoe / 100 + doy in
  era * 146097 + doe - 719468.

Definition utcDateGetTime (s : string) : Z :=
  let y := decimalValue (substring 0 4 s) 0 in
  let m := decimalValue (substring 5 2 s) 0 in
  let d := decimalValue (substring 8 2 s) 0 in
  (daysFromCivil y m d * 86400 + 12 * 3600) * 1000.

Definition philadelphia : list Address :=
  [ {| city := Some "Philadelphia"; region := Some "PA"; country := Some "US" |} ].

(** The end-to-end scenario: one rainy day. *)
Definition rainyDay : OpenMeteoDaily :=
  {| time := Some ["2025-11-17"];
     temperature_2m_max := [15%Q];
     temperature_2m_min := [5%Q];
     precipitation_probability_max := Some [50%Q];
     weathercode := Some [61] |}.

Definition worldOf (geo : JsError + option (list Address))
    (http : JsError + OpenMeteoResponse) : World :=
  {| requestForegroundPermissionsAsync := inr "granted";
     getCurrentPositionAsync := inr (40%Q, (-75)%Q);
     reverseGeocodeAsync := λ _ _, geo;
     axios_get := λ _ _, http;
     dateGetTime := utcDateGetTime |}.

Definition rainyWorld : World :=
  worldOf (inr (Some philadelphia)) (inr {| data_daily := Some rainyDay |}).

Definition deniedWorld : World :=
  {| requestForegroundPermissionsAsync := inr "denied";
     getCurrentPositionAsync := inr (40%Q, (-75)%Q);
     reverseGeocodeAsync := λ _ _, inr (Some philadelphia);
     axios_get := λ _ _, inr {| data_daily := Some rainyDay |};
     dateGetTime := utcDateGetTime |}.

(** Ten days of forecast, all arrays of length ten. *)
Definition tenDates : list string :=
  ["2025-11-17"; "2025-11-18"; "2025-11-19"; "2025-11-20"; "2025-11-21";
   "2025-11-22"; "2025-11-23"; "2025-11-24"; "2025-11-25"; "2025-11-26"].

Definition tenDays : OpenMeteoDaily :=
  {| time := Some tenDates;
     temperature_2m_max := [15; 14; 13; 12; 11; 10; 9; 8; 7; 6]%Q;
     temperature_2m_min := [5; 4; 3; 2; 1; 0; 1; 2; 3; 4]%Q;
     precipitation_probability_max := Some [50; 10; 20; 30; 40; 0; 100; 5; 60; 70]%Q;
     weathercode := Some [61; 0; 1; 2; 3; 45; 95; 71; 80; 51] |}.

(** A provider answer whose probability is already on the 0..1 scale. *)
Definition prescaledDay : OpenMeteoDaily :=
  {| time := Some ["2025-11-17"];
     temperature_2m_max := [15%Q];
     temperature_2m_min := [5%Q];
     precipitation_probability_max := Some [(1 # 2)%Q];
     weathercode := Some [61] |}.

(** Two dates, but a single entry in every other array. *)
Definition mismatchedDays : OpenMeteoDaily :=
  {| time := Some ["2025-11-17"; "2025-11-18"];
     temperature_2m_max := [15%Q];
     temperature_2m_min := [5%Q];
     precipitation_probability_max := Some [50%Q];
     weathercode := Some [61] |}.

(** Dates only: no optional array, no temperatures. *)
Definition datesOnly : OpenMeteoDaily :=
  {| time := Some ["2025-11-17"];
     temperature_2m_max := [];
     temperature_2m_min := [];
     precipitation_probability_max := None;
     weathercode := None |}.

(** The sample device, receiving the daily object [d]. *)
Definition forecastWorld (d : OpenMeteoDaily) : World :=
  worldOf (inr (Some philadelphia)) (inr {| data_daily := Some d |}).

(** A provider answer with a probability beyond 100. *)
Definition overscaledDay : OpenMeteoDaily :=
  {| time := Some ["2025-11-17"];
     temperature_2m_max := [15%Q];
     temperature_2m_min := [5%Q];
     precipitation_probability_max := Some [250%Q];
     weathercode := Some [0] |}.

(** A mild day: 30% chance of rain under a clear sky. *)
Definition mildDay : DailyWeather :=
  {| dt := 1763380800;
     temp := {| temp_min := Some 5%Q; temp_max := Some 15%Q |};
     pop := Some (3 # 10)%Q;
     weather := Some [ {| w_id := Some 800; w_main := "Clear";
                          w_description := "clear sky"; w_icon := "01d" |} ] |}.

(** ** src/components/DayCard.tsx: what a card reads from a day *)

Definition cardDescription (day : DailyWeather) : string :=
  default "" (w_description <$> (weather day ≫= (λ ws : list WeatherEntry, ws !! 0%nat))).

Definition cardBadge (day : DailyWeather) : string * string :=
  let advice := getCarCoverAdvice day in
  (adviceLabel advice, adviceColor advice).

(** ** Vocabulary of the specification *)

(** Precipitation probability of a day, 0 when absent. *)
Definition popOrZero (d : DailyWeather) : Q :=
  match pop d with
  | Some p => p
  | None => 0%Q
  end.

(** Code of the first condition, the clear-sky sentinel 800 when there is
    none. *)
Definition firstCodeOrClear (d : DailyWeather) : Z :=
  match weather d with
  | Some (entry :: _) =>
      match w_id entry with
      | Some code => code
      | None => 800
      end
  | _ => 800
  end.

(** The thunderstorm and rain family of condition codes. *)
Definition stormy (code : Z) : Prop := 200 <= code < 600.

Definition red : string := "#dc2626".

(** The code-to-description table, as rows [(low, high, text)] with both
    ends included; the first matching row wins. *)
Definition descriptionTable : list (Z * Z * string) :=
  [ (0, 0, "Clear sky");
    (1, 2, "Mainly clear");
    (3, 3, "Cloudy");
    (45, 48, "Fog");
    (51, 57, "Drizzle");
    (61, 67, "Rain");
    (71, 77, "Snow");
    (80, 82, "Rain showers");
    (95, 99, "Thunderstorm") ].

Definition inRow (code : Z) (row : Z * Z * string) : bool :=
  let '(low, high, _) := row in (low <=? code) && (code <=? high).

Definition tableDescription (code : Z) : string :=
  match List.find (inRow code) descriptionTable with
  | Some (_, _, text) => text
  | None => "Weather code " ++ numberToString code
  end.

(** The date series of a provider answer, if it has one. *)
Definition dateSeries (res : OpenMeteoResponse) : option (list string) :=
  data_daily res ≫= time.

(** The provider's raw value at a day index, with the defaults of
    [toDailyWeather]. *)
Definition rawPop (d : OpenMeteoDaily) (index : nat) : Q :=
  match precipitation_probability_max d with
  | Some a => match a !! index with Some p => p | None => 0%Q end
  | None => 0%Q
  end.

Definition rawCode (d : OpenMeteoDaily) (index : nat) : option Z :=
  match weathercode d with
  | Some a => a !! index
  | None => None
  end.

(** The parallel arrays do not all have the length of the date series. *)
Definition mismatched (d : OpenMeteoDaily) (dates : list string) : Prop :=
  length (temperature_2m_max d) ≠ length dates
  ∨ length (temperature_2m_min d) ≠ length dates
  ∨ (∃ a, precipitation_probability_max d = Some a ∧ length a ≠ length dates)
  ∨ (∃ a, weathercode d = Some a ∧ length a ≠ length dates).

(** [hay.includes(needle)]. *)
Definition includes (needle hay : string) : bool :=
  match String.index 0 needle hay with
  | Some _ => true
  | None => false
  end.

(** The same world, but for the answer of the reverse geocoder. *)
Definition withGeocode (w : World) (geo : JsError + option (list Address)) : World :=
  {| requestForegroundPermissionsAsync := requestForegroundPermissionsAsync w;
     getCurrentPositionAsync := getCurrentPositionAsync w;
     reverseGeocodeAsync := λ _ _, geo;
     axios_get := axios_get w;
     dateGetTime := dateGetTime w |}.

(** A cycle got as far as the coordinates [(lat, lon)]. *)
Definition located (w : World) (lat lon : Q) : Prop :=
  requestForegroundPermissionsAsync w = inr "granted"
  ∧ getCurrentPositionAsync w = inr (lat, lon).

(** A cycle received the provider answer [res] for [(lat, lon)]. *)
Definition answered (w : World) (lat lon : Q) (res : OpenMeteoResponse) : Prop :=
  located w lat lon ∧ axios_get w lat lon = inr res.

(** An address field with nothing to show. *)
Definition blank (field : option string) : Prop :=
  field = None ∨ field = Some "".

(** ** src/components/DayCard.tsx: the card *)

(** How the device writes an instant (milliseconds since the epoch):
    [toLocaleDateString] with the short weekday, and with year, short
    month and day. *)
Record Locale := {
  weekdayShort : Z → string;
  longDate : Z → string
}.

(** What a card shows. *)
Record Card := {
  dayName : string;
  dateText : string;
  desc : string;
  iconUrl : option string;
  tempText : string;
  badgeColor : string;
  badgeText : string
}.

(** [String(Math.round(t))]; the rounding of [undefined] is [NaN]. *)
Definition roundedText (t : option Q) : string :=
  match t with
  | Some x => numberToString (Math_round x)
  | None => "NaN"
  end.

Definition DayCard (loc : Locale) (day : DailyWeather) (index : nat) : Card :=
  let advice := getCarCoverAdvice day in
  let label := adviceLabel advice in
  let badgeColor := adviceColor advice in
  let date := dt day * 1000 in
  let dayName := if (index =? 0)%nat then "Today" else weekdayShort loc date in
  let iconCode :=
    truthy (w_icon <$> (weather day ≫= (λ ws : list WeatherEntry, ws !! 0%nat))) in
  let iconUrl :=
    (λ code, "https://openweathermap.org/img/wn/" ++ code ++ "@2x.png") <$> iconCode in
  let description := cardDescription day in
  {| dayName := dayName;
     dateText := longDate loc date;
     desc := description;
     iconUrl := iconUrl;
     tempText := roundedText (temp_max (temp day)) ++ "° / "
                 ++ roundedText (temp_min (temp day)) ++ "°";
     badgeColor := badgeColor;
     badgeText := label |}.

(** ** src/screens/WeatherScreen.tsx: what the screen shows

    The four conditional blocks of the component's JSX.  The location line
    is kept as the place and the coordinates it is written from. *)
Record View := {
  locationLine : option (string * option (Q * Q));
  spinner : bool;
  errorText : option string;
  cards : option (list (Z * Card))
}.

Definition isTruthy (s : option string) : bool :=
  match truthy s with
  | Some _ => true
  | None => false
  end.

Definition render (loc : Locale) (s : Screen) : View :=
  {| locationLine := (λ p, (p, coords s)) <$> truthy (place s);
     spinner := loading s && negb (refreshing s);
     errorText := if isTruthy (error s) && negb (loading s) then error s else None;
     cards := if negb (loading s) && negb (isTruthy (error s))
              then Some (imap (λ idx day, (dt day, DayCard loc day idx)) (daily s))
              else None |}.

(** The screen after the first load ([useEffect]) and after a pull to
    refresh, and after a first load followed by refreshes, each cycle
    running to its end before the next one starts. *)
Definition mount (w : World) : Screen := ui (cycle w initialScreen).

Definition refresh (w : World) (s : Screen) : Screen :=
  ui (snd (onRefresh w {| ui := s; calls := [] |})).

Definition session (first : World) (later : list World) : Screen :=
  fold_left (λ s w, refresh w s) later (mount first).

(** ** Further vocabulary *)

(** How much rain a category stands for. *)
Definition urgency (advice : CarCoverAdvice) : nat :=
  match advice with
  | cover => 0
  | optional => 1
  | no => 2
  end.

(** A day as [fetchWeather] builds it: a probability, and one condition
    entry whose label and description come from the table and whose icon
    is empty. *)
Definition normalized (day : DailyWeather) : Prop :=
  ∃ (p : Q) (code : Z),
    pop day = Some p
    ∧ weather day = Some [ {| w_id := Some code;
                              w_main := tableDescription code;
                              w_description := tableDescription code;
                              w_icon := "" |} ].

(** What every screen of a session satisfies: at most seven days, each
    built by [fetchWeather], and a place name that is not empty. *)
Definition tidy (s : Screen) : Prop :=
  (length (daily s) <= 7)%nat
  ∧ Forall normalized (daily s)
  ∧ place s ≠ Some "".

(** The message shown for a thrown value. *)
Definition shownMessage (e : JsError) : string :=
  match message e with
  | Some m => m
  | None => "Failed to load weather."
  end.

(** A device in UTC with English names: the civil date of an instant. *)
Definition civilFromDays (z : Z) : Z * Z * Z :=
  let z := z + 719468 in
  let era := z / 146097 in
  let doe := z - era * 146097 in
  let yoe := (doe - doe / 1460 + doe / 36524 - doe / 146096) / 365 in
  let doy := doe - (365 * yoe + yoe / 4 - yoe / 100) in
  let mp := (5 * doy + 2) / 153 in
  let d := doy - (153 * mp + 2) / 5 + 1 in
  let m := if mp <? 10 then mp + 3 else mp - 9 in
  let y := yoe + era * 400 + (if m <=? 2 then 1 else 0) in
  (y, m, d).

Definition utcLocale : Locale :=
  {| weekdayShort := λ ms,
       nth (Z.to_nat ((ms / 86400000 + 4) mod 7))
           ["Sun"; "Mon"; "Tue"; "Wed"; "Thu"; "Fri"; "Sat"] "";
     longDate := λ ms,
       let '(y, m, d) := civilFromDays (ms / 86400000) in
       nth (Z.to_nat (m - 1))
           ["Jan"; "Feb"; "Mar"; "Apr"; "May"; "Jun";
            "Jul"; "Aug"; "Sep"; "Oct"; "Nov"; "Dec"] ""
       ++ " " ++ numberToString d ++ ", " ++ numberToString y |}.

(** * Properties *)

(** ** The advisory classifier *)

Lemma geq_true (x y : Q) : geq x y = true ↔ (y <= x)%Q.
Proof. unfold geq. apply Qle_bool_iff. Qed.

Lemma geq_false (x y : Q) : geq x y = false ↔ (x < y)%Q.
Proof.
  unfold geq. split.
  - intros H. apply Qnot_le_lt. intros Hle.
    apply Qle_bool_iff in Hle. congruence.
  - intros H. destruct (Qle_bool y x) eqn:E; [|reflexivity].
    apply Qle_bool_iff in E. exfalso. exact (Qlt_not_le _ _ H E).
Qed.

Lemma stormy_test (code : Z) :
  (200 <=? code) && (code <? 600) = true ↔ stormy code.
Proof. unfold stormy. rewrite andb_true_iff, Z.leb_le, Z.ltb_lt. tauto. Qed.

Lemma getCarCoverAdvice_reads (d : DailyWeather) :
  default 0%Q (pop d) = popOrZero d
  ∧ default 800 ((weather d ≫= (λ ws : list WeatherEntry, ws !! 0%nat)) ≫= w_id)
    = firstCodeOrClear d.
Proof.
  unfold popOrZero, firstCodeOrClear.
  destruct d as [t tm [p|] [[|e ws]|]]; cbn; split; reflexivity.
Qed.

(** C1.  The classifier answers [no], the category shown in red, exactly
    when the precipitation probability (0 when absent) is at least 0.4 or
    the first condition code (800 when there is none) lies in
    [200, 600). *)
Theorem C1_no_iff_rain_likely_or_stormy (d : DailyWeather) :
  (getCarCoverAdvice d = no
     ↔ (4 # 10 <= popOrZero d)%Q ∨ stormy (firstCodeOrClear d))
  ∧ (adviceColor (getCarCoverAdvice d) = red ↔ getCarCoverAdvice d = no)
  ∧ adviceLabel no = "No cover needed".
Proof.
  destruct (getCarCoverAdvice_reads d) as [Hp Hc].
  split; [|split; [|reflexivity]].
  - unfold getCarCoverAdvice. rewrite Hp, Hc.
    rewrite <- geq_true, <- stormy_test, <- orb_true_iff.
    destruct (geq (popOrZero d) (4 # 10) || _); [tauto|].
    destruct (geq (popOrZero d) (2 # 10)); split; intros H; discriminate H.
  - destruct (getCarCoverAdvice d); cbn; split; intros H;
      first [reflexivity | discriminate H].
Qed.

(** C2.  With a precipitation probability below 0.4 and a first condition
    code outside [200, 600), the classifier answers [optional] from 0.2
    upwards and [cover] below 0.2. *)
Theorem C2_optional_or_cover (d : DailyWeather) :
  (popOrZero d < 4 # 10)%Q →
  ¬ stormy (firstCodeOrClear d) →
  ((2 # 10 <= popOrZero d)%Q → getCarCoverAdvice d = optional)
  ∧ ((popOrZero d < 2 # 10)%Q → getCarCoverAdvice d = cover).
Proof.
  intros Hlt Hcalm.
  destruct (getCarCoverAdvice_reads d) as [Hp Hc].
  apply geq_false in Hlt. rewrite <- stormy_test in Hcalm.
  apply not_true_is_false in Hcalm.
  unfold getCarCoverAdvice. rewrite Hp, Hc, Hlt, Hcalm. cbn.
  split; intros H.
  - apply geq_true in H. rewrite H. reflexivity.
  - apply geq_false in H. rewrite H. reflexivity.
Qed.

Lemma C2_optional_or_cover_witness :
  getCarCoverAdvice mildDay = optional.
Proof.
  apply (C2_optional_or_cover mildDay).
  - reflexivity.
  - unfold stormy. cbn. lia.
  - vm_compute. discriminate.
Defined.

(** ** The description of a weather code *)

Lemma describeWeatherCode_table (code : Z) :
  describeWeatherCode (Some code) = tableDescription code.
Proof.
  unfold describeWeatherCode, tableDescription, descriptionTable, inRow.
  cbn [List.find].
  repeat match goal with
  | |- context [Z.eqb ?a ?b] => destruct (Z.eqb_spec a b); cbn [orb andb]
  | |- context [Z.leb ?a ?b] => destruct (Z.leb_spec a b); cbn [orb andb]
  end; first [reflexivity | lia].
Qed.

(** ** One cycle of [fetchWeather] *)

Ltac run :=
  unfold cycle, fetchWeather, try_catch_finally, try_catch, await, bind, emit,
    ret, throw, return_, setError, setLoading, setRefreshing, setDaily,
    setPlace, setCoords, modify; cbn.

Lemma not_granted (status : string) :
  status ≠ "granted" → negb (status =? "granted")%string = true.
Proof.
  intros H. destruct (String.eqb_spec status "granted"); [contradiction|reflexivity].
Qed.

Lemma length_zero_test {A} (l : list A) :
  l ≠ [] → (length l =? 0)%nat = false.
Proof. destruct l; [contradiction|reflexivity]. Qed.

(** A cycle that receives a non-empty date series ends ready. *)
Lemma cycle_ready (w : World) (s : Screen) (lat lon : Q)
    (res : OpenMeteoResponse) (d : OpenMeteoDaily) (dates : list string) :
  answered w lat lon res →
  data_daily res = Some d → time d = Some dates → dates ≠ [] →
  loading (ui (cycle w s)) = false
  ∧ refreshing (ui (cycle w s)) = false
  ∧ error (ui (cycle w s)) = None
  ∧ daily (ui (cycle w s)) = take 7 (imap (toDailyWeather w d) dates)
  ∧ coords (ui (cycle w s)) = Some (lat, lon).
Proof.
  intros [[Hperm Hpos] Hhttp] Hd Ht Hne.
  apply length_zero_test in Hne.
  run. rewrite Hperm. cbn. rewrite Hpos. cbn.
  destruct (reverseGeocodeAsync w lat lon) as [e|[[|addr rest]|]]; cbn;
    rewrite Hhttp; cbn; rewrite Hd, Ht, Hne; cbn; repeat split.
Qed.

(** A cycle that receives no date series, or an empty one, ends in error
    and leaves the published days alone. *)
Lemma cycle_no_data (w : World) (s : Screen) (lat lon : Q)
    (res : OpenMeteoResponse) :
  answered w lat lon res →
  dateSeries res = None ∨ dateSeries res = Some [] →
  loading (ui (cycle w s)) = false
  ∧ refreshing (ui (cycle w s)) = false
  ∧ error (ui (cycle w s)) = Some "No daily forecast data received."
  ∧ daily (ui (cycle w s)) = daily s.
Proof.
  intros [[Hperm Hpos] Hhttp] Hseries.
  run. rewrite Hperm. cbn. rewrite Hpos. cbn.
  unfold dateSeries in Hseries.
  destruct (reverseGeocodeAsync w lat lon) as [e|[[|addr rest]|]]; cbn;
    rewrite Hhttp; cbn;
    (destruct (data_daily res) as [d|]; cbn in *;
      [destruct (time d) as [[|date dates]|]; cbn|]);
    first [by repeat split | by destruct Hseries].
Qed.

Lemma take_min_length {A} (l : list A) (n : nat) :
  take (Nat.min (length l) n) l = take n l.
Proof.
  destruct (Nat.le_ge_cases (length l) n).
  - rewrite Nat.min_l by lia. rewrite !take_ge by lia. reflexivity.
  - rewrite Nat.min_r by lia. reflexivity.
Qed.

(** Every published day is the image of a date of the series, at the
    same index. *)
Lemma ready_day (w : World) (d : OpenMeteoDaily) (dates : list string)
    (i : nat) (day : DailyWeather) :
  take 7 (imap (toDailyWeather w d) dates) !! i = Some day →
  (i < 7)%nat
  ∧ ∃ dateStr, dates !! i = Some dateStr ∧ day = toDailyWeather w d i dateStr.
Proof.
  intros H. apply lookup_take_Some in H as [H Hi].
  split; [exact Hi|].
  rewrite list_lookup_imap in H.
  destruct (dates !! i) as [dateStr|]; [|discriminate H].
  exists dateStr. split; [reflexivity|]. cbn in H. congruence.
Qed.

Lemma toDailyWeather_reads (d : OpenMeteoDaily) (index : nat) :
  default 0%Q (precipitation_probability_max d ≫= (λ a : list Q, a !! index))
    = rawPop d index
  ∧ (weathercode d ≫= (λ a : list Z, a !! index)) = rawCode d index.
Proof.
  unfold rawPop, rawCode.
  destruct (precipitation_probability_max d) as [a|],
           (weathercode d) as [c|]; cbn; split; try reflexivity;
    destruct (a !! index); reflexivity.
Qed.

Lemma toDailyWeather_pop (w : World) (d : OpenMeteoDaily) (index : nat)
    (dateStr : string) :
  pop (toDailyWeather w d index dateStr) = Some (rawPop d index / 100)%Q.
Proof.
  unfold toDailyWeather. cbn [pop].
  destruct (toDailyWeather_reads d index) as [-> _]. reflexivity.
Qed.

Lemma toDailyWeather_weather (w : World) (d : OpenMeteoDaily) (index : nat)
    (dateStr : string) :
  let code := default 0 (rawCode d index) in
  weather (toDailyWeather w d index dateStr)
  = Some [ {| w_id := Some code;
              w_main := tableDescription code;
              w_description := tableDescription code;
              w_icon := "" |} ].
Proof.
  unfold toDailyWeather. cbn [weather].
  destruct (toDailyWeather_reads d index) as [_ ->].
  rewrite describeWeatherCode_table. reflexivity.
Qed.

Lemma scaled_in_unit (x : Q) :
  (0 <= x / 100 ∧ x / 100 <= 1)%Q ↔ (0 <= x ∧ x <= 100)%Q.
Proof.
  destruct x as [a b]. unfold Qle, Qdiv, Qmult, Qinv. cbn. lia.
Qed.

Lemma scaled_fixed (x : Q) : (x / 100 == x)%Q ↔ (x == 0)%Q.
Proof.
  destruct x as [a b]. unfold Qeq, Qdiv, Qmult, Qinv. cbn. nia.
Qed.

(** ** The normalizer *)

(** C3 (amended).  The normalizer divides the provider's precipitation
    probability (0 when absent) by 100 exactly once, whatever its scale; a
    value already in [0, 1] is not recognised and is divided as well.  The
    published probability lies in the unit interval exactly when the
    provider's value lies in [0, 100], and equals the provider's value
    only when that value is 0. *)
Theorem C3_probability_divided_once (w : World) (s : Screen) (lat lon : Q)
    (res : OpenMeteoResponse) (d : OpenMeteoDaily) (dates : list string) :
  answered w lat lon res →
  data_daily res = Some d → time d = Some dates → dates ≠ [] →
  ∀ (i : nat) (day : DailyWeather),
    daily (ui (cycle w s)) !! i = Some day →
    pop day = Some (rawPop d i / 100)%Q
    ∧ ((0 <= popOrZero day ∧ popOrZero day <= 1)%Q
         ↔ (0 <= rawPop d i ∧ rawPop d i <= 100)%Q)
    ∧ ((popOrZero day == rawPop d i)%Q ↔ (rawPop d i == 0)%Q).
Proof.
  intros Hans Hd Ht Hne i day Hday.
  destruct (cycle_ready w s lat lon res d dates Hans Hd Ht Hne)
    as (_ & _ & _ & Hdaily & _).
  rewrite Hdaily in Hday.
  apply ready_day in Hday as (_ & dateStr & _ & ->).
  unfold popOrZero. rewrite toDailyWeather_pop.
  split; [reflexivity|]. split; [apply scaled_in_unit|apply scaled_fixed].
Qed.

Lemma C3_probability_divided_once_witness :
  pop (toDailyWeather (forecastWorld rainyDay) rainyDay 0 "2025-11-17")
  = Some (rawPop rainyDay 0 / 100)%Q.
Proof.
  apply (C3_probability_divided_once (forecastWorld rainyDay) initialScreen
           40 (-75) {| data_daily := Some rainyDay |} rainyDay ["2025-11-17"]).
  - repeat split.
  - reflexivity.
  - reflexivity.
  - discriminate.
  - reflexivity.
Defined.

(** C3 as stated fails: a probability already on the 0..1 scale, 1/2, is
    divided again and published as 1/200; and a provider value of 250 is
    published as 5/2, outside the unit interval. *)
Lemma C3_counterexample :
  (∃ day, daily (ui (cycle (forecastWorld prescaledDay) initialScreen)) !! 0%nat
            = Some day
          ∧ (0 <= rawPop prescaledDay 0 ∧ rawPop prescaledDay 0 <= 1)%Q
          ∧ (popOrZero day == 1 # 200)%Q
          ∧ ¬ (popOrZero day == rawPop prescaledDay 0)%Q)
  ∧ (∃ day, daily (ui (cycle (forecastWorld overscaledDay) initialScreen)) !! 0%nat
              = Some day
            ∧ (popOrZero day == 5 # 2)%Q
            ∧ ¬ (popOrZero day <= 1)%Q).
Proof.
  split.
  - eexists. split; [reflexivity|]. vm_compute. repeat split; discriminate.
  - eexists. split; [reflexivity|]. vm_compute. split; [reflexivity|].
    intros H. apply H. reflexivity.
Qed.

(** C4 (amended).  The lengths of the parallel arrays are not compared
    with the date series.  Whenever the date series is present and not
    empty the cycle ends ready, with one day per date up to seven: a day
    whose index lies beyond the end of an array gets no temperature, a
    probability of 0 and the code 0; entries beyond the date series are
    not read. *)
Theorem C4_mismatch_not_detected (w : World) (s : Screen) (lat lon : Q)
    (res : OpenMeteoResponse) (d : OpenMeteoDaily) (dates : list string) :
  answered w lat lon res →
  data_daily res = Some d → time d = Some dates → dates ≠ [] →
  error (ui (cycle w s)) = None
  ∧ loading (ui (cycle w s)) = false
  ∧ length (daily (ui (cycle w s))) = Nat.min 7 (length dates)
  ∧ ∀ (i : nat) (day : DailyWeather),
      daily (ui (cycle w s)) !! i = Some day →
      temp day = {| temp_min := temperature_2m_min d !! i;
                    temp_max := temperature_2m_max d !! i |}
      ∧ pop day = Some (rawPop d i / 100)%Q
      ∧ (weather day ≫= (λ ws : list WeatherEntry, ws !! 0%nat)) ≫= w_id
        = Some (default 0 (rawCode d i)).
Proof.
  intros Hans Hd Ht Hne.
  destruct (cycle_ready w s lat lon res d dates Hans Hd Ht Hne)
    as (Hload & _ & Herr & Hdaily & _).
  rewrite Hdaily. split; [exact Herr|]. split; [exact Hload|]. split.
  - rewrite length_take, length_imap. reflexivity.
  - intros i day Hday.
    apply ready_day in Hday as (_ & dateStr & _ & ->).
    split; [reflexivity|]. split; [apply toDailyWeather_pop|].
    rewrite toDailyWeather_weather. reflexivity.
Qed.

Lemma C4_mismatch_not_detected_witness :
  mismatched mismatchedDays ["2025-11-17"; "2025-11-18"]
  ∧ length (daily (ui (cycle (forecastWorld mismatchedDays) initialScreen)))
    = 2%nat.
Proof.
  split.
  - left. cbn. discriminate.
  - apply (C4_mismatch_not_detected (forecastWorld mismatchedDays) initialScreen
             40 (-75) {| data_daily := Some mismatchedDays |} mismatchedDays
             ["2025-11-17"; "2025-11-18"]).
    + repeat split.
    + reflexivity.
    + reflexivity.
    + discriminate.
Defined.

(** C4 as stated fails: two dates against one entry in every other array
    end ready with two days, the second one filled with defaults. *)
Lemma C4_counterexample :
  mismatched mismatchedDays ["2025-11-17"; "2025-11-18"]
  ∧ time mismatchedDays = Some ["2025-11-17"; "2025-11-18"]
  ∧ error (ui (cycle (forecastWorld mismatchedDays) initialScreen)) = None
  ∧ loading (ui (cycle (forecastWorld mismatchedDays) initialScreen)) = false
  ∧ daily (ui (cycle (forecastWorld mismatchedDays) initialScreen))
    = [ toDailyWeather (forecastWorld mismatchedDays) mismatchedDays 0 "2025-11-17";
        {| dt := 1763467200;
           temp := {| temp_min := None; temp_max := None |};
           pop := Some (0 / 100)%Q;
           weather := Some [ {| w_id := Some 0; w_main := "Clear sky";
                                w_description := "Clear sky"; w_icon := "" |} ] |} ].
Proof.
  repeat split.
  left. cbn. discriminate.
Qed.

(** C5 (amended).  For every published day the condition description is
    the one the code-to-description table gives for the day's weather
    code, and it is also the short label; when the provider has no code
    at that index the code is taken to be 0 and the description is
    "Clear sky".  The empty description is what [describeWeatherCode]
    answers for an absent code, which [fetchWeather] never passes. *)
Theorem C5_description_from_table (w : World) (s : Screen) (lat lon : Q)
    (res : OpenMeteoResponse) (d : OpenMeteoDaily) (dates : list string) :
  answered w lat lon res →
  data_daily res = Some d → time d = Some dates → dates ≠ [] →
  (∀ (i : nat) (day : DailyWeather),
     daily (ui (cycle w s)) !! i = Some day →
     let code := default 0 (rawCode d i) in
     weather day = Some [ {| w_id := Some code;
                             w_main := tableDescription code;
                             w_description := tableDescription code;
                             w_icon := "" |} ]
     ∧ cardDescription day = tableDescription code
     ∧ (rawCode d i = None → cardDescription day = "Clear sky"))
  ∧ (∀ code : Z, describeWeatherCode (Some code) = tableDescription code)
  ∧ describeWeatherCode None = "".
Proof.
  intros Hans Hd Ht Hne.
  destruct (cycle_ready w s lat lon res d dates Hans Hd Ht Hne)
    as (_ & _ & _ & Hdaily & _).
  split; [|split; [apply describeWeatherCode_table|reflexivity]].
  intros i day Hday code. rewrite Hdaily in Hday.
  apply ready_day in Hday as (_ & dateStr & _ & ->).
  unfold cardDescription. rewrite toDailyWeather_weather. fold code.
  split; [reflexivity|]. split; [reflexivity|].
  intros Hnone. subst code. rewrite Hnone. reflexivity.
Qed.

Lemma C5_description_from_table_witness :
  cardDescription (toDailyWeather (forecastWorld rainyDay) rainyDay 0 "2025-11-17")
  = "Rain".
Proof.
  destruct (C5_description_from_table (forecastWorld rainyDay) initialScreen
              40 (-75) {| data_daily := Some rainyDay |} rainyDay ["2025-11-17"])
    as [Hdays _].
  - repeat split.
  - reflexivity.
  - reflexivity.
  - discriminate.
  - destruct (Hdays 0%nat _ eq_refl) as (_ & Hdescription & _).
    exact Hdescription.
Defined.

(** C5 as stated fails in its last part: a provider answer without any
    weather code yields the description "Clear sky", not the empty
    string. *)
Lemma C5_counterexample :
  ∃ day, daily (ui (cycle (forecastWorld datesOnly) initialScreen)) !! 0%nat
           = Some day
         ∧ rawCode datesOnly 0 = None
         ∧ cardDescription day = "Clear sky"
         ∧ cardDescription day ≠ "".
Proof.
  eexists. split; [reflexivity|]. repeat split. discriminate.
Qed.

(** C6.  The published days are the first [min n 7] entries of the
    provider's [n] days, in the provider's order; ten days give exactly
    seven.  (With [n = 0] the cycle ends in error and publishes nothing
    new: the equation then holds on a screen that shows no days yet.) *)
Theorem C6_first_seven_days (w : World) (s : Screen) (lat lon : Q)
    (res : OpenMeteoResponse) (d : OpenMeteoDaily) (dates : list string) :
  answered w lat lon res →
  data_daily res = Some d → time d = Some dates →
  (dates = [] → daily s = []) →
  let days := daily (ui (cycle w s)) in
  days = take (Nat.min (length dates) 7) (imap (toDailyWeather w d) dates)
  ∧ length days = Nat.min (length dates) 7
  ∧ (∀ i : nat, (i < Nat.min (length dates) 7)%nat →
       ∃ dateStr, dates !! i = Some dateStr
                  ∧ days !! i = Some (toDailyWeather w d i dateStr))
  ∧ (length dates = 10%nat →
       length days = 7%nat
       ∧ days = imap (toDailyWeather w d) (take 7 dates))
  ∧ (dates ≠ [] → error (ui (cycle w s)) = None).
Proof.
  intros Hans Hd Ht Hempty days.
  assert (Hdays : days = take 7 (imap (toDailyWeather w d) dates)).
  { destruct dates as [|date dates'].
    - destruct (cycle_no_data w s lat lon res Hans) as (_ & _ & _ & Hsame).
      { right. unfold dateSeries. rewrite Hd. exact Ht. }
      subst days. rewrite Hsame. rewrite Hempty; reflexivity.
    - apply (cycle_ready w s lat lon res d (date :: dates') Hans Hd Ht).
      discriminate. }
  assert (Hlen : length days = Nat.min (length dates) 7).
  { rewrite Hdays, length_take, length_imap. lia. }
  split; [|split; [exact Hlen|split; [|split]]].
  - rewrite Hdays. rewrite <- (length_imap (toDailyWeather w d)).
    symmetry. apply take_min_length.
  - intros i Hi.
    destruct (lookup_lt_is_Some_2 dates i) as [dateStr HdateStr]; [lia|].
    exists dateStr. split; [assumption|].
    rewrite Hdays, lookup_take_lt, list_lookup_imap, HdateStr by lia.
    reflexivity.
  - intros Hten. split; [rewrite Hlen, Hten; reflexivity|].
    rewrite Hdays. apply list_eq. intros i.
    destruct (decide (i < 7)%nat) as [Hi|Hi].
    + rewrite lookup_take_lt, !list_lookup_imap, lookup_take_lt by lia.
      reflexivity.
    + rewrite lookup_take_ge, list_lookup_imap, lookup_take_ge by lia.
      reflexivity.
  - intros Hne.
    apply (cycle_ready w s lat lon res d dates Hans Hd Ht Hne).
Qed.

Lemma C6_first_seven_days_witness :
  length (daily (ui (cycle (forecastWorld tenDays) initialScreen))) = 7%nat
  ∧ daily (ui (cycle (forecastWorld tenDays) initialScreen))
    = imap (toDailyWeather (forecastWorld tenDays) tenDays) (take 7 tenDates).
Proof.
  apply (C6_first_seven_days (forecastWorld tenDays) initialScreen
           40 (-75) {| data_daily := Some tenDays |} tenDays tenDates).
  - repeat split.
  - reflexivity.
  - reflexivity.
  - discriminate.
  - reflexivity.
Defined.

(** ** Failures of a cycle *)

(** C7.  When the provider's answer has no daily date series, or an empty
    one, the cycle ends in error with exactly the message
    "No daily forecast data received.". *)
Theorem C7_no_daily_forecast_data (w : World) (s : Screen) (lat lon : Q)
    (res : OpenMeteoResponse) :
  answered w lat lon res →
  dateSeries res = None ∨ dateSeries res = Some [] →
  error (ui (cycle w s)) = Some "No daily forecast data received."
  ∧ loading (ui (cycle w s)) = false
  ∧ daily (ui (cycle w s)) = daily s.
Proof.
  intros Hans Hseries.
  destruct (cycle_no_data w s lat lon res Hans Hseries) as (Hl & _ & He & Hd).
  auto.
Qed.

Lemma C7_no_daily_forecast_data_witness :
  error (ui (cycle (worldOf (inr (Some philadelphia))
                            (inr {| data_daily := Some
                                      {| time := Some [];
                                         temperature_2m_max := [];
                                         temperature_2m_min := [];
                                         precipitation_probability_max := Some [];
                                         weathercode := Some [] |} |}))
                   initialScreen))
  = Some "No daily forecast data received.".
Proof.
  eapply C7_no_daily_forecast_data.
  - repeat split.
  - right. reflexivity.
Defined.

(** C8.  When location permission is not granted the cycle ends in error
    with the message "Location permission denied. Enable it in Settings.";
    the permission request is the only call the cycle makes, so the weather
    provider is not contacted, the position is not asked for, no
    coordinates are set and nothing is tried again. *)
Theorem C8_permission_denied (w : World) (s : Screen) (status : string) :
  requestForegroundPermissionsAsync w = inr status →
  status ≠ "granted" →
  error (ui (cycle w s))
    = Some "Location permission denied. Enable it in Settings."
  ∧ (∃ msg, error (ui (cycle w s)) = Some msg
            ∧ includes "Location permission denied" msg = true)
  ∧ loading (ui (cycle w s)) = false
  ∧ calls (cycle w s) = [RequestForegroundPermissions]
  ∧ (∀ lat lon : Q, HttpGet lat lon ∉ calls (cycle w s))
  ∧ coords (ui (cycle w s)) = coords s
  ∧ place (ui (cycle w s)) = place s
  ∧ daily (ui (cycle w s)) = daily s
  ∧ fst (fetchWeather w {| ui := s; calls := [] |}) = Return.
Proof.
  intros Hperm Hdenied. apply not_granted in Hdenied.
  assert (Hrun : fetchWeather w {| ui := s; calls := [] |}
                 = (Return,
                    {| ui := {| loading := false; refreshing := false;
                                error := Some "Location permission denied. Enable it in Settings.";
                                daily := daily s; place := place s;
                                coords := coords s |};
                       calls := [RequestForegroundPermissions] |})).
  { run. rewrite Hperm. cbn. rewrite Hdenied. reflexivity. }
  unfold cycle. rewrite Hrun. cbn.
  repeat split.
  - eexists. split; reflexivity.
  - intros lat lon Hin. apply list_elem_of_singleton in Hin. discriminate Hin.
Qed.

Lemma C8_permission_denied_witness :
  calls (cycle deniedWorld initialScreen) = [RequestForegroundPermissions]
  ∧ error (ui (cycle deniedWorld initialScreen))
    = Some "Location permission denied. Enable it in Settings.".
Proof.
  destruct (C8_permission_denied deniedWorld initialScreen "denied")
    as (Herror & _ & _ & Hcalls & _).
  - reflexivity.
  - discriminate.
  - split; assumption.
Defined.

(** ** Reverse geocoding *)

(** C9.  When reverse geocoding throws, the place name is absent and the
    failure goes no further: the forecast is still requested, and loading
    flag, refresh flag, error message, days and coordinates after the
    cycle are those of the cycle in which the geocoder gives any other
    answer; with a non-empty date series the cycle ends ready. *)
Theorem C9_reverse_geocode_failure_swallowed (w : World) (s : Screen)
    (lat lon : Q) (e : JsError) :
  located w lat lon →
  reverseGeocodeAsync w lat lon = inl e →
  place (ui (cycle w s)) = None
  ∧ HttpGet lat lon ∈ calls (cycle w s)
  ∧ (∀ geo : JsError + option (list Address),
       loading (ui (cycle w s)) = loading (ui (cycle (withGeocode w geo) s))
       ∧ refreshing (ui (cycle w s)) = refreshing (ui (cycle (withGeocode w geo) s))
       ∧ error (ui (cycle w s)) = error (ui (cycle (withGeocode w geo) s))
       ∧ daily (ui (cycle w s)) = daily (ui (cycle (withGeocode w geo) s))
       ∧ coords (ui (cycle w s)) = coords (ui (cycle (withGeocode w geo) s)))
  ∧ (∀ (res : OpenMeteoResponse) (d : OpenMeteoDaily) (dates : list string),
       axios_get w lat lon = inr res →
       data_daily res = Some d → time d = Some dates → dates ≠ [] →
       error (ui (cycle w s)) = None
       ∧ loading (ui (cycle w s)) = false
       ∧ daily (ui (cycle w s)) = take 7 (imap (toDailyWeather w d) dates)).
Proof.
  intros [Hperm Hpos] Hgeo.
  repeat apply conj.
  - run. rewrite Hperm. cbn. rewrite Hpos. cbn. rewrite Hgeo. cbn.
    destruct (axios_get w lat lon) as [err|res]; cbn; [reflexivity|].
    destruct (data_daily res) as [d|]; [|reflexivity].
    destruct (time d) as [dates|]; [|reflexivity].
    destruct (length dates =? 0)%nat; reflexivity.
  - run. rewrite Hperm. cbn. rewrite Hpos. cbn. rewrite Hgeo. cbn.
    destruct (axios_get w lat lon) as [err|res]; cbn;
      [|destruct (data_daily res) as [d|];
         [destruct (time d) as [dates|];
            [destruct (length dates =? 0)%nat|]|]];
      cbn; rewrite !elem_of_cons; tauto.
  - intros geo.
    run. rewrite Hperm. cbn. rewrite Hpos. cbn. rewrite Hgeo. cbn.
    destruct geo as [e'|[[|addr rest]|]]; cbn;
      (destruct (axios_get w lat lon) as [err|res]; cbn;
        [|destruct (data_daily res) as [d|];
           [destruct (time d) as [dates|];
              [destruct (length dates =? 0)%nat|]|]]);
      cbn; repeat split.
  - intros res d dates Hhttp Hd Ht Hne.
    destruct (cycle_ready w s lat lon res d dates) as (Hl & _ & He & Hdays & _);
      auto.
    split; [split; assumption|assumption].
Qed.

Lemma C9_reverse_geocode_failure_swallowed_witness :
  place (ui (cycle (worldOf (inl {| message := Some "geocoder unavailable" |})
                            (inr {| data_daily := Some rainyDay |}))
                   initialScreen)) = None.
Proof.
  eapply (C9_reverse_geocode_failure_swallowed _ initialScreen 40 (-75)).
  - split; reflexivity.
  - reflexivity.
Defined.

(** C10.  In a cycle that reaches reverse geocoding, an answer without
    candidates, or one whose first candidate has neither city, region nor
    country, publishes the place name "Unknown location"; the place name
    is absent after the step exactly when the geocoder throws. *)
Theorem C10_unknown_location (w : World) (s : Screen) (lat lon : Q) :
  located w lat lon →
  (∀ results : option (list Address),
     reverseGeocodeAsync w lat lon = inr results →
     results = None ∨ results = Some [] →
     place (ui (cycle w s)) = Some "Unknown location")
  ∧ (∀ (addr : Address) (rest : list Address),
       reverseGeocodeAsync w lat lon = inr (Some (addr :: rest)) →
       blank (city addr) → blank (region addr) → blank (country addr) →
       place (ui (cycle w s)) = Some "Unknown location")
  ∧ (place (ui (cycle w s)) = None
       ↔ ∃ e : JsError, reverseGeocodeAsync w lat lon = inl e).
Proof.
  intros [Hperm Hpos].
  assert (Hplace : place (ui (cycle w s))
    = match reverseGeocodeAsync w lat lon with
      | inl _ => None
      | inr (Some (addr :: _)) =>
          Some (orElse (join ", " (filterBoolean [city addr; region addr; country addr]))
                       "Unknown location")
      | inr _ => Some "Unknown location"
      end).
  { run. rewrite Hperm. cbn. rewrite Hpos. cbn.
    destruct (reverseGeocodeAsync w lat lon) as [e|[[|addr rest]|]]; cbn;
      (destruct (axios_get w lat lon) as [err|res]; cbn;
        [|destruct (data_daily res) as [d|];
           [destruct (time d) as [dates|];
              [destruct (length dates =? 0)%nat|]|]]);
      reflexivity. }
  rewrite Hplace. repeat apply conj.
  - intros results -> [->| ->]; reflexivity.
  - intros addr rest -> [Hc|Hc] [Hr|Hr] [Hn|Hn]; rewrite Hc, Hr, Hn; reflexivity.
  - intros H. destruct (reverseGeocodeAsync w lat lon) as [e|[[|addr rest]|]];
      [exists e; reflexivity|discriminate H..].
  - intros [e ->]. reflexivity.
Qed.

Lemma C10_unknown_location_witness :
  place (ui (cycle (worldOf (inr (Some [])) (inr {| data_daily := Some rainyDay |}))
                   initialScreen))
  = Some "Unknown location".
Proof.
  destruct (C10_unknown_location
              (worldOf (inr (Some [])) (inr {| data_daily := Some rainyDay |}))
              initialScreen 40 (-75)) as (Hempty & _ & _).
  - split; reflexivity.
  - apply (Hempty (Some [])); [reflexivity|right; reflexivity].
Defined.

(** ** The end-to-end scenario

    At (40, -75) the provider sends one day: 15/5 degrees, 50% chance of
    precipitation, code 61. *)
Example end_to_end :
  ∃ day, daily (ui (cycle rainyWorld initialScreen)) = [day]
         ∧ (popOrZero day == 1 # 2)%Q
         ∧ cardDescription day = "Rain"
         ∧ getCarCoverAdvice day = no
         ∧ cardBadge day = ("No cover needed", red)
         ∧ place (ui (cycle rainyWorld initialScreen)) = Some "Philadelphia, PA, US"
         ∧ error (ui (cycle rainyWorld initialScreen)) = None.
Proof. eexists. split; [reflexivity|]. repeat split. Qed.

(** A refresh runs the same cycle again and clears the refresh flag. *)
Example refresh_after_denial :
  let after := snd (onRefresh rainyWorld
                      {| ui := ui (cycle deniedWorld initialScreen); calls := [] |}) in
  refreshing (ui after) = false
  ∧ error (ui after) = None
  ∧ length (daily (ui after)) = 1%nat.
Proof. repeat split. Qed.

(** * Further properties *)

(** ** The classifier and its badge *)

Lemma getCarCoverAdvice_cases (d : DailyWeather) :
  getCarCoverAdvice d
  = if geq (popOrZero d) (4 # 10)
       || ((200 <=? firstCodeOrClear d) && (firstCodeOrClear d <? 600))
    then no
    else if geq (popOrZero d) (2 # 10) then optional else cover.
Proof.
  destruct (getCarCoverAdvice_reads d) as [Hp Hc].
  unfold getCarCoverAdvice. rewrite Hp, Hc. reflexivity.
Qed.

Lemma geq_mono (x y t : Q) : (x <= y)%Q → geq x t = true → geq y t = true.
Proof.
  rewrite !geq_true. intros Hxy Htx. exact (Qle_trans _ _ _ Htx Hxy).
Qed.

(** More rain never lowers the category: of two days with the same first
    condition code, the one with the higher precipitation probability gets
    a category at least as urgent ([cover] below [optional] below [no]).
    In particular two days with equal probability and code get the same
    category. *)
Theorem advice_monotone_in_probability (d1 d2 : DailyWeather) :
  firstCodeOrClear d1 = firstCodeOrClear d2 →
  (popOrZero d1 <= popOrZero d2)%Q →
  (urgency (getCarCoverAdvice d1) <= urgency (getCarCoverAdvice d2))%nat.
Proof.
  intros Hcode Hpop. rewrite !getCarCoverAdvice_cases, <- Hcode.
  pose proof (geq_mono _ _ (4 # 10) Hpop) as H4.
  pose proof (geq_mono _ _ (2 # 10) Hpop) as H2.
  destruct ((200 <=? firstCodeOrClear d1) && (firstCodeOrClear d1 <? 600));
    [rewrite !orb_true_r; reflexivity|].
  rewrite !orb_false_r.
  destruct (geq (popOrZero d1) (4 # 10)).
  { rewrite H4 by reflexivity. reflexivity. }
  destruct (geq (popOrZero d1) (2 # 10)).
  { rewrite H2 by reflexivity. destruct (geq (popOrZero d2) (4 # 10)); cbn; lia. }
  cbn. lia.
Qed.

Lemma advice_monotone_in_probability_witness :
  (urgency (getCarCoverAdvice
              (toDailyWeather (forecastWorld datesOnly) datesOnly 0 "2025-11-17"))
   <= urgency (getCarCoverAdvice
                 (toDailyWeather (forecastWorld tenDays) tenDays 1 "2025-11-18")))%nat.
Proof.
  apply advice_monotone_in_probability.
  - reflexivity.
  - vm_compute. discriminate.
Defined.

Lemma adviceLabel_inj (a b : CarCoverAdvice) : adviceLabel a = adviceLabel b → a = b.
Proof. destruct a, b; cbn; intros H; first [reflexivity | discriminate H]. Qed.

Lemma adviceColor_inj (a b : CarCoverAdvice) : adviceColor a = adviceColor b → a = b.
Proof. destruct a, b; cbn; intros H; first [reflexivity | discriminate H]. Qed.

(** The badge of a card tells the category, by its colour as well as by
    its text: two cards have the same badge colour exactly when they have
    the same badge text, and exactly when their days are in the same
    category. *)
Theorem badge_tells_advice (loc : Locale) (day1 day2 : DailyWeather) (i j : nat) :
  (badgeColor (DayCard loc day1 i) = badgeColor (DayCard loc day2 j)
     ↔ getCarCoverAdvice day1 = getCarCoverAdvice day2)
  ∧ (badgeText (DayCard loc day1 i) = badgeText (DayCard loc day2 j)
       ↔ getCarCoverAdvice day1 = getCarCoverAdvice day2).
Proof.
  cbn. split; (split; [|intros ->; reflexivity]).
  - apply adviceColor_inj.
  - apply adviceLabel_inj.
Qed.

Lemma percent_threshold (x : Q) (n : Z) :
  geq (x / 100) (n # 10) = geq x (inject_Z (10 * n)).
Proof.
  unfold geq. apply eq_true_iff_eq. rewrite !Qle_bool_iff.
  destruct x as [a b]. unfold Qle, Qdiv, Qmult, Qinv, inject_Z. cbn. lia.
Qed.

(** For a day built by [fetchWeather] from a provider code outside
    [200, 600) -- as all of the provider's own codes 0..99 are -- the
    category is decided by the provider's percentage alone: [no] from 40,
    [optional] from 20 to below 40, [cover] below 20. *)
Theorem advice_from_percentage (w : World) (d : OpenMeteoDaily)
    (index : nat) (dateStr : string) :
  ¬ stormy (default 0 (rawCode d index)) →
  let day := toDailyWeather w d index dateStr in
  ((40 <= rawPop d index)%Q → getCarCoverAdvice day = no)
  ∧ ((20 <= rawPop d index)%Q → (rawPop d index < 40)%Q →
       getCarCoverAdvice day = optional)
  ∧ ((rawPop d index < 20)%Q → getCarCoverAdvice day = cover).
Proof.
  intros Hcalm day.
  assert (Hadvice : getCarCoverAdvice day
    = if geq (rawPop d index) 40 then no
      else if geq (rawPop d index) 20 then optional else cover).
  { rewrite getCarCoverAdvice_cases. unfold popOrZero, firstCodeOrClear.
    subst day. rewrite toDailyWeather_pop, toDailyWeather_weather. cbn [w_id].
    rewrite <- stormy_test in Hcalm. apply not_true_is_false in Hcalm.
    rewrite Hcalm, orb_false_r, !percent_threshold. reflexivity. }
  rewrite Hadvice. repeat split.
  - intros H. apply geq_true in H. rewrite H. reflexivity.
  - intros H20 H40. apply geq_true in H20. apply geq_false in H40.
    rewrite H20, H40. reflexivity.
  - intros H20. assert (H40 : (rawPop d index < 40)%Q).
    { eapply Qlt_trans; [exact H20|reflexivity]. }
    apply geq_false in H20. apply geq_false in H40.
    rewrite H20, H40. reflexivity.
Qed.

Lemma advice_from_percentage_witness :
  getCarCoverAdvice (toDailyWeather (forecastWorld rainyDay) rainyDay 0 "2025-11-17")
  = no.
Proof.
  apply (advice_from_percentage (forecastWorld rainyDay) rainyDay 0 "2025-11-17").
  - unfold stormy. cbn. lia.
  - vm_compute. discriminate.
Defined.

(** ** Every path of a cycle *)

(** Case analysis on the answers of the world, along [fetchWeather]. *)
Ltac paths w :=
  unfold mount, refresh, onRefresh;
  run;
  destruct (requestForegroundPermissionsAsync w) as [perr|status] eqn:Hperm; cbn;
  [|destruct (String.eqb_spec status "granted") as [Hgranted|Hdenied]; cbn;
    [destruct (getCurrentPositionAsync w) as [poserr|[lat0 lon0]] eqn:Hpos; cbn;
      [|destruct (reverseGeocodeAsync w lat0 lon0)
          as [geoerr|[[|addr rest]|]] eqn:Hgeo; cbn;
        (destruct (axios_get w lat0 lon0) as [httperr|res0] eqn:Hhttp; cbn;
          [|destruct (data_daily res0) as [d0|] eqn:Hd; cbn;
            [destruct (time d0) as [[|date0 dates0]|] eqn:Ht; cbn|]])]
    |]].

Lemma cycle_flags (w : World) (s : Screen) :
  loading (ui (cycle w s)) = false ∧ refreshing (ui (cycle w s)) = false.
Proof. split; paths w; reflexivity. Qed.

Lemma onRefresh_cycle (w : World) (s : Screen) :
  snd (onRefresh w {| ui := s; calls := [] |}) = cycle w s.
Proof. paths w; reflexivity. Qed.

(** A cycle always comes to an end: [fetchWeather] never rejects, and
    whatever the device and the network answer, the loading and the
    refreshing flags are both off afterwards. *)
Theorem cycle_always_settles (w : World) (s : Screen) :
  (∀ e : JsError, fst (fetchWeather w {| ui := s; calls := [] |}) ≠ Throw e)
  ∧ loading (ui (cycle w s)) = false
  ∧ refreshing (ui (cycle w s)) = false.
Proof.
  split; [|apply cycle_flags].
  intros e. paths w; discriminate.
Qed.

(** A pull to refresh ends in the very state, and makes the very calls, of
    a plain cycle from the same screen: the refreshing flag it raises is
    lowered again on every path. *)
Theorem refresh_is_a_cycle (w : World) (s : Screen) :
  snd (onRefresh w {| ui := s; calls := [] |}) = cycle w s
  ∧ refresh w s = ui (cycle w s).
Proof.
  split; [apply onRefresh_cycle|].
  unfold refresh. rewrite onRefresh_cycle. reflexivity.
Qed.

(** No call is made twice in a cycle, and the forecast is requested, and
    the place looked up, exactly for the coordinates the device reported
    after permission was granted; these are the coordinates the screen
    then holds. *)
Theorem calls_follow_the_position (w : World) (s : Screen) (lat lon : Q) :
  NoDup (calls (cycle w s))
  ∧ (HttpGet lat lon ∈ calls (cycle w s) ↔ located w lat lon)
  ∧ (ReverseGeocode lat lon ∈ calls (cycle w s) ↔ located w lat lon)
  ∧ (located w lat lon → coords (ui (cycle w s)) = Some (lat, lon)).
Proof.
  unfold located.
  repeat apply conj; paths w;
    rewrite ?NoDup_cons, ?elem_of_cons, ?not_elem_of_cons, ?elem_of_nil;
    try (intuition (first [discriminate | congruence | apply NoDup_nil_2])).
Qed.

(** There is no half-finished result.  A cycle ends without error exactly
    when permission was granted, the position obtained and a non-empty
    date series received; in every other case an error message is set and
    the days on the screen are left as they were. *)
Theorem error_unless_ready (w : World) (s : Screen) :
  (error (ui (cycle w s)) = None
     ↔ ∃ lat lon res d dates,
         answered w lat lon res
         ∧ data_daily res = Some d ∧ time d = Some dates ∧ dates ≠ [])
  ∧ (error (ui (cycle w s)) ≠ None → daily (ui (cycle w s)) = daily s).
Proof.
  unfold answered, located.
  split; paths w;
    try (intros Herror; first [reflexivity | contradiction]);
    (split;
     [ first
         [ discriminate
         | intros _; exists lat0, lon0, res0, d0, (date0 :: dates0);
           subst; repeat split; first [assumption | discriminate] ]
     | intros (lat & lon & res & d & dates & [[Hp Hq] Hh] & Hdd & Htt & Hne);
       first [reflexivity | simplify_eq; congruence] ]).
Qed.

(** A rejected call is shown with its message.  When the permission
    request, the position request or the forecast request rejects, the
    cycle ends with the rejection's message as error, or with
    "Failed to load weather." when it has none; the failure is logged and
    the days on the screen stay as they were. *)
Theorem rejection_is_shown (w : World) (s : Screen) (e : JsError) :
  requestForegroundPermissionsAsync w = inl e
  ∨ (requestForegroundPermissionsAsync w = inr "granted"
     ∧ getCurrentPositionAsync w = inl e)
  ∨ (∃ lat lon, located w lat lon ∧ axios_get w lat lon = inl e) →
  error (ui (cycle w s)) = Some (shownMessage e)
  ∧ (message e = None → error (ui (cycle w s)) = Some "Failed to load weather.")
  ∧ ConsoleError "[Weather] Error:" ∈ calls (cycle w s)
  ∧ daily (ui (cycle w s)) = daily s.
Proof.
  unfold located, shownMessage.
  intros Hrejected.
  assert (Hpath :
    error (ui (cycle w s)) = Some (default "Failed to load weather." (message e))
    ∧ ConsoleError "[Weather] Error:" ∈ calls (cycle w s)
    ∧ daily (ui (cycle w s)) = daily s).
  { revert Hrejected. paths w;
      (intros [Hr|[[Hp Hq]|(lat & lon & [Hp Hq] & Hh)]]; simplify_eq;
       try congruence);
      try (rewrite Hhttp in Hh; simplify_eq);
      (split; [reflexivity|split; [|reflexivity]]);
      rewrite !elem_of_cons; tauto. }
  destruct Hpath as (Herror & Hlog & Hdays).
  rewrite Herror. destruct (message e); repeat split; auto; discriminate.
Qed.

Lemma rejection_is_shown_witness :
  error (ui (cycle (worldOf (inr None) (inl {| message := None |})) initialScreen))
  = Some "Failed to load weather.".
Proof.
  apply (rejection_is_shown _ initialScreen {| message := None |}).
  - right. right. exists 40%Q, (-75)%Q. repeat split.
  - reflexivity.
Defined.

(** ** The place name *)

Lemma place_after_geocoding (w : World) (s : Screen) (lat lon : Q) :
  located w lat lon →
  place (ui (cycle w s))
  = match reverseGeocodeAsync w lat lon with
    | inl _ => None
    | inr (Some (addr :: _)) =>
        Some (orElse (join ", " (filterBoolean [city addr; region addr; country addr]))
                     "Unknown location")
    | inr _ => Some "Unknown location"
    end.
Proof.
  unfold located. revert lat lon.
  paths w; intros lat lon [Hp Hq]; simplify_eq; try congruence;
    rewrite Hgeo; reflexivity.
Qed.

Lemma orElse_not_empty (x : string) : orElse x "Unknown location" ≠ "".
Proof. destruct x; discriminate. Qed.





(** ** Timestamps *)

Lemma Math_round_thousandth (ms : Z) :
  Math_round (inject_Z ms / 1000) = (ms + 500) / 1000.
Proof.
  unfold Math_round, Qfloor, Qdiv, Qmult, Qinv, Qplus, inject_Z. cbn.
  change (Z.pos (1 * 1000 * 2)) with (2 * 1000).
  change (Z.pos (1 * 1000)) with 1000.
  rewrite <- (Z.div_mul_cancel_l (ms + 500) 1000 2) by lia.
  f_equal. lia.
Qed.

Lemma toDailyWeather_dt (w : World) (d : OpenMeteoDaily) (index : nat)
    (dateStr : string) :
  dt (toDailyWeather w d index dateStr)
  = (dateGetTime w (dateStr ++ "T12:00:00") + 500) / 1000.
Proof. unfold toDailyWeather. cbn [dt]. apply Math_round_thousandth. Qed.

(** The timestamp of a day is the device's noon instant in whole seconds:
    the instant a card reads back from it, [dt * 1000], is off by at most
    half a second, and is the noon instant itself whenever that is a whole
    number of seconds. *)
Theorem timestamp_reads_back (w : World) (d : OpenMeteoDaily) (index : nat)
    (dateStr : string) :
  let noon := dateGetTime w (dateStr ++ "T12:00:00") in
  let shown := dt (toDailyWeather w d index dateStr) * 1000 in
  noon - 500 < shown <= noon + 500
  ∧ (noon mod 1000 = 0 → shown = noon).
Proof.
  intros noon shown. subst shown. rewrite toDailyWeather_dt. fold noon.
  pose proof (Z.div_mod (noon + 500) 1000 ltac:(lia)) as Hdiv.
  pose proof (Z.mod_pos_bound (noon + 500) 1000 ltac:(lia)) as Hmod.
  split; [lia|].
  intros Hwhole.
  assert (Hrem : (noon + 500) mod 1000 = 500).
  { rewrite Z.add_mod, Hwhole by lia. reflexivity. }
  lia.
Qed.

(** Two dates whose noon instants lie a second or more apart get
    timestamps in the same order, so the keys of their cards differ. *)
Theorem timestamps_keep_the_order (w : World) (d : OpenMeteoDaily)
    (i j : nat) (date1 date2 : string) :
  dateGetTime w (date1 ++ "T12:00:00") + 1000
    <= dateGetTime w (date2 ++ "T12:00:00") →
  dt (toDailyWeather w d i date1) < dt (toDailyWeather w d j date2).
Proof.
  intros Hapart. rewrite !toDailyWeather_dt.
  set (a := dateGetTime w (date1 ++ "T12:00:00")) in *.
  set (b := dateGetTime w (date2 ++ "T12:00:00")) in *.
  assert (Hstep : (a + 500) / 1000 + 1 <= (b + 500) / 1000).
  { replace ((a + 500) / 1000 + 1) with ((a + 500 + 1 * 1000) / 1000)
      by (rewrite Z.div_add by lia; reflexivity).
    apply Z.div_le_mono; lia. }
  lia.
Qed.

Lemma timestamps_keep_the_order_witness :
  dt (toDailyWeather (forecastWorld tenDays) tenDays 0 "2025-11-17")
  < dt (toDailyWeather (forecastWorld tenDays) tenDays 1 "2025-11-18").
Proof.
  apply timestamps_keep_the_order. vm_compute. discriminate.
Defined.

(** ** Descriptions *)

Lemma describeWeatherCode_not_empty (code : Z) :
  describeWeatherCode (Some code) ≠ "".
Proof.
  unfold describeWeatherCode.
  repeat match goal with
  | |- context [if ?b then _ else _] => destruct b
  end; discriminate.
Qed.

Lemma tableDescription_not_empty (code : Z) : tableDescription code ≠ "".
Proof.
  rewrite <- describeWeatherCode_table. apply describeWeatherCode_not_empty.
Qed.

(** The description of a weather code is empty only when the code is
    absent; so no day built by [fetchWeather], which always passes a code,
    has an empty description on its card. *)
Theorem description_empty_iff_absent (code : option Z) :
  (describeWeatherCode code = "" ↔ code = None)
  ∧ ∀ (w : World) (d : OpenMeteoDaily) (index : nat) (dateStr : string),
      cardDescription (toDailyWeather w d index dateStr) ≠ "".
Proof.
  split.
  - split; [|intros ->; reflexivity].
    destruct code as [code|]; [|reflexivity].
    intros H. destruct (describeWeatherCode_not_empty code H).
  - intros w d index dateStr. unfold cardDescription.
    rewrite toDailyWeather_weather. cbn. apply tableDescription_not_empty.
Qed.

(** ** What a session keeps *)

Lemma ready_days_normalized (w : World) (d : OpenMeteoDaily) (dates : list string) :
  Forall normalized (take 7 (imap (toDailyWeather w d) dates)).
Proof.
  apply Forall_lookup. intros i day Hday.
  apply ready_day in Hday as (_ & dateStr & _ & ->).
  exists (rawPop d i / 100)%Q, (default 0 (rawCode d i)).
  split; [apply toDailyWeather_pop|apply toDailyWeather_weather].
Qed.

Lemma cycle_days (w : World) (s : Screen) :
  daily (ui (cycle w s)) = daily s
  ∨ ∃ d dates, daily (ui (cycle w s)) = take 7 (imap (toDailyWeather w d) dates).
Proof.
  paths w; first [left; reflexivity
                 | right; exists d0, (date0 :: dates0); reflexivity].
Qed.

Lemma cycle_place (w : World) (s : Screen) :
  place (ui (cycle w s)) = place s
  ∨ place (ui (cycle w s)) = None
  ∨ ∃ name, place (ui (cycle w s)) = Some name ∧ name ≠ "".
Proof.
  paths w;
    first [ left; reflexivity
          | right; left; reflexivity
          | right; right; eexists; split;
            [reflexivity|first [discriminate | apply orElse_not_empty]] ].
Qed.

Lemma cycle_tidy (w : World) (s : Screen) : tidy s → tidy (ui (cycle w s)).
Proof.
  intros (Hlen & Hall & Hplace). repeat apply conj.
  - destruct (cycle_days w s) as [->|(d & dates & ->)]; [exact Hlen|].
    rewrite length_take. lia.
  - destruct (cycle_days w s) as [->|(d & dates & ->)]; [exact Hall|].
    apply ready_days_normalized.
  - destruct (cycle_place w s) as [->|[->|(name & -> & Hname)]];
      [exact Hplace|discriminate|congruence].
Qed.

Lemma session_settled_and_tidy (first : World) (later : list World) :
  loading (session first later) = false
  ∧ refreshing (session first later) = false
  ∧ tidy (session first later).
Proof.
  unfold session.
  assert (Hstart : loading (mount first) = false
                   ∧ refreshing (mount first) = false ∧ tidy (mount first)).
  { unfold mount. destruct (cycle_flags first initialScreen) as [Hl Hr].
    repeat split; [exact Hl|exact Hr|apply cycle_tidy..];
      repeat split; first [cbn; lia | constructor | discriminate]. }
  revert Hstart. generalize (mount first) as s.
  induction later as [|w later IH]; intros s Hs; [exact Hs|].
  cbn [fold_left]. apply IH.
  unfold refresh. rewrite onRefresh_cycle.
  destruct (cycle_flags w s) as [Hl Hr], Hs as (_ & _ & Htidy).
  repeat split; [exact Hl|exact Hr|apply cycle_tidy, Htidy..].
Qed.

(** Whatever the device and the network answer during a first load and
    any number of refreshes, the screen afterwards is at rest (neither
    loading nor refreshing), holds at most seven days, each of them built
    by [fetchWeather] (a probability, and exactly one condition entry with
    a description from the table and no icon), and never holds an empty
    place name. *)
Theorem session_invariant (first : World) (later : list World) :
  loading (session first later) = false
  ∧ refreshing (session first later) = false
  ∧ (length (daily (session first later)) <= 7)%nat
  ∧ Forall normalized (daily (session first later))
  ∧ place (session first later) ≠ Some "".
Proof.
  destruct (session_settled_and_tidy first later) as (Hl & Hr & Hlen & Hall & Hp).
  auto.
Qed.

(** ** What the screen shows *)

(** The spinner, the error text and the list of cards exclude one another
    in every state, and the screen shows none of the three exactly while a
    refresh is under way (loading and refreshing both on). *)
Theorem panels_exclude_one_another (loc : Locale) (s : Screen) :
  let v := render loc s in
  (spinner v = true → errorText v = None ∧ cards v = None)
  ∧ (is_Some (errorText v) → cards v = None)
  ∧ (spinner v = false ∧ errorText v = None ∧ cards v = None
       ↔ loading s = true ∧ refreshing s = true).
Proof.
  destruct s as [l r [[|c e]|] ds p cs]; destruct l, r; cbn;
    repeat split; intros; try reflexivity;
    repeat match goal with
    | H : _ ∧ _ |- _ => destruct H
    | H : is_Some None |- _ => destruct H
    end; congruence.
Qed.

Lemma normalized_card (loc : Locale) (day : DailyWeather) (index : nat) :
  normalized day →
  iconUrl (DayCard loc day index) = None
  ∧ desc (DayCard loc day index) ≠ "".
Proof.
  intros (p & code & Hpop & Hweather).
  unfold DayCard, cardDescription. cbn [iconUrl desc].
  rewrite Hweather. cbn. split; [reflexivity|apply tableDescription_not_empty].
Qed.

(** After a first load and any number of refreshes the screen shows no
    spinner and either the error text or the list of cards, never both and
    never neither.  The list has at most seven cards, one per day on the
    screen and in their order, keyed by the day's timestamp; the first is
    named "Today"; none has an icon, and none an empty description. *)
Theorem view_after_session (loc : Locale) (first : World) (later : list World) :
  let s := session first later in
  let v := render loc s in
  spinner v = false
  ∧ (errorText v = None ↔ is_Some (cards v))
  ∧ ∀ cs : list (Z * Card),
      cards v = Some cs →
      (length cs = length (daily s) ∧ length cs <= 7)%nat
      ∧ ∀ (i : nat) (key : Z) (c : Card),
          cs !! i = Some (key, c) →
          (∃ day, daily s !! i = Some day ∧ key = dt day ∧ c = DayCard loc day i)
          ∧ (i = 0%nat → dayName c = "Today")
          ∧ iconUrl c = None
          ∧ desc c ≠ "".
Proof.
  intros s v.
  destruct (session_settled_and_tidy first later) as (Hl & Hr & Hlen & Hall & _).
  fold s in Hl, Hr, Hlen, Hall.
  subst v. unfold render. cbn [spinner errorText cards]. rewrite Hl, Hr. cbn.
  split; [reflexivity|]. split.
  - unfold isTruthy. destruct (error s) as [[|c e]|]; cbn; split; intros H;
      first [eexists; reflexivity | reflexivity | discriminate H
            | destruct H as [x H]; discriminate H].
  - intros cs Hcs. destruct (isTruthy (error s)); [discriminate Hcs|].
    cbn in Hcs. injection Hcs as <-. rewrite length_imap.
    split; [split; [reflexivity|exact Hlen]|].
    intros i key c Hi. rewrite list_lookup_imap in Hi.
    destruct (daily s !! i) as [day|] eqn:Hday; [|discriminate Hi].
    cbn in Hi. injection Hi as <- <-.
    pose proof (proj1 (Forall_lookup _ _) Hall i day Hday) as Hnorm.
    destruct (normalized_card loc day i Hnorm) as [Hicon Hdesc].
    split; [exists day; auto|]. split; [intros ->; reflexivity|].
    split; assumption.
Qed.

Lemma to_int_not_nil (z : Z) :
  Z.to_int z ≠ Decimal.Pos Decimal.Nil ∧ Z.to_int z ≠ Decimal.Neg Decimal.Nil.
Proof.
  destruct z as [|p|p]; cbn; split; intros H; try discriminate H;
    injection H as H; exact (DecimalPos.Unsigned.to_uint_nonnil p H).
Qed.

Lemma numberToString_inj (a b : Z) : numberToString a = numberToString b → a = b.
Proof.
  unfold numberToString. intros H.
  apply (f_equal NilZero.int_of_string) in H.
  destruct (to_int_not_nil a) as [Ha1 Ha2], (to_int_not_nil b) as [Hb1 Hb2].
  rewrite !NilZero.isi in H by assumption.
  injection H as H. apply (f_equal Z.of_int) in H.
  rewrite !DecimalZ.of_to in H. exact H.
Qed.

(** A description tells the row of the table its code comes from: two
    codes with the same description lie in the same row, or are one and
    the same code outside every row. *)
Theorem description_tells_the_row (a b : Z) :
  describeWeatherCode (Some a) = describeWeatherCode (Some b) →
  a = b
  ∨ ∃ row, row ∈ descriptionTable ∧ inRow a row = true ∧ inRow b row = true.
Proof.
  rewrite !describeWeatherCode_table. unfold tableDescription.
  destruct (List.find (inRow a) descriptionTable) as [[[la ha] ta]|] eqn:Ha,
           (List.find (inRow b) descriptionTable) as [[[lb hb] tb]|] eqn:Hb.
  - intros ->. right.
    apply find_some in Ha as [Hina Hrowa], Hb as [Hinb Hrowb].
    assert (Hsame : (la, ha) = (lb, hb)).
    { unfold descriptionTable in Hina, Hinb. cbn in Hina, Hinb.
      repeat match goal with
      | H : _ ∨ _ |- _ => destruct H
      | H : False |- _ => destruct H
      | H : (_, _, _) = (_, _, _) |- _ => injection H as <- <- ?
      end; congruence. }
    injection Hsame as <- <-.
    exists (la, ha, tb). split; [apply list_elem_of_In; exact Hinb|].
    split; assumption.
  - intros H. exfalso.
    apply find_some in Ha as [Hina _].
    unfold descriptionTable in Hina. cbn in Hina.
    repeat match goal with
    | H : _ ∨ _ |- _ => destruct H
    | H : False |- _ => destruct H
    | H : (_, _, _) = (_, _, _) |- _ => injection H as <- <- <-
    end; discriminate H.
  - intros H. exfalso.
    apply find_some in Hb as [Hinb _].
    unfold descriptionTable in Hinb. cbn in Hinb.
    repeat match goal with
    | H : _ ∨ _ |- _ => destruct H
    | H : False |- _ => destruct H
    | H : (_, _, _) = (_, _, _) |- _ => injection H as <- <- <-
    end; discriminate H.
  - intros H. left. apply numberToString_inj.
    cbn in H. injection H as H. exact H.
Qed.

Lemma description_tells_the_row_witness :
  61 = 67
  ∨ ∃ row, row ∈ descriptionTable ∧ inRow 61 row = true ∧ inRow 67 row = true.
Proof.
  apply description_tells_the_row. reflexivity.
Defined.

(** ** A cycle and the screen before it *)

(** The calls of a cycle, its error message and its flags do not depend
    on what the screen held before; and a cycle that ends without error
    replaces the whole screen: nothing of the earlier state is left. *)
Theorem cycle_forgets_the_past (w : World) (s s' : Screen) :
  calls (cycle w s) = calls (cycle w s')
  ∧ error (ui (cycle w s)) = error (ui (cycle w s'))
  ∧ loading (ui (cycle w s)) = loading (ui (cycle w s'))
  ∧ refreshing (ui (cycle w s)) = refreshing (ui (cycle w s'))
  ∧ (error (ui (cycle w s)) = None → ui (cycle w s) = ui (cycle w s')).
Proof.
  repeat apply conj; paths w; first [reflexivity | discriminate].
Qed.

(** In a cycle that got the position, the location line is shown exactly
    when reverse geocoding did not throw; it then carries a place name that
    is not empty and the coordinates the device reported. *)
Theorem location_line_after_cycle (loc : Locale) (w : World) (s : Screen)
    (lat lon : Q) :
  located w lat lon →
  let v := render loc (ui (cycle w s)) in
  (locationLine v = None ↔ ∃ e : JsError, reverseGeocodeAsync w lat lon = inl e)
  ∧ ∀ (name : string) (position : option (Q * Q)),
      locationLine v = Some (name, position) →
      name ≠ "" ∧ position = Some (lat, lon).
Proof.
  intros Hloc v. subst v. unfold render. cbn [locationLine].
  assert (Hcoords : coords (ui (cycle w s)) = Some (lat, lon)).
  { destruct Hloc as [Hp Hq]. paths w; simplify_eq; congruence. }
  rewrite Hcoords, (place_after_geocoding w s lat lon Hloc).
  destruct (reverseGeocodeAsync w lat lon) as [e|[[|addr rest]|]]; cbn.
  - split; [split; [exists e; reflexivity|reflexivity]|]. discriminate.
  - split; [split; [discriminate|intros [e He]; discriminate He]|].
    intros name position H. injection H as <- <-. split; [discriminate|reflexivity].
  - pose proof (orElse_not_empty
        (join ", " (filterBoolean [city addr; region addr; country addr]))) as Hne.
    destruct (orElse _ _) as [|c rest']; [contradiction|]. cbn.
    split; [split; [discriminate|intros [e He]; discriminate He]|].
    intros name position H. injection H as <- <-. split; [discriminate|reflexivity].
  - split; [split; [discriminate|intros [e He]; discriminate He]|].
    intros name position H. injection H as <- <-. split; [discriminate|reflexivity].
Qed.

Lemma location_line_after_cycle_witness :
  locationLine (render utcLocale (ui (cycle rainyWorld initialScreen))) = None
  ↔ ∃ e : JsError, reverseGeocodeAsync rainyWorld 40 (-75) = inl e.
Proof.
  apply (location_line_after_cycle utcLocale rainyWorld initialScreen 40 (-75)).
  split; reflexivity.
Defined.
